(** * Commitments: a shallow embedding of [main.py]

    The application is a FastAPI program: request handlers over a
    SQLAlchemy database session and a Starlette cookie session.  The
    handlers are embedded as functions in a state-and-exception monad over
    the pair (database, cookie session); Python exceptions are values of
    [PyExc]; rows are records with the columns the model classes declare. *)

From Stdlib Require Import ZArith NArith List String Ascii Bool Lia.
From stdpp Require Import base option list strings gmap fin_maps.

Local Open Scope string_scope.
Local Open Scope Z_scope.

(** ** Python values *)

(** A Python [str] is a sequence of Unicode code points. *)
Definition pystr := list N.

(** A source literal (all literals of [main.py] used here are ASCII). *)
Definition lit (s : string) : pystr :=
  map N_of_ascii (list_ascii_of_string s).

Definition pystr_eqb (a b : pystr) : bool := bool_decide (a = b).

(** [str.isspace] on one code point: the code points [str.strip()] removes. *)
Definition py_isspace (c : N) : bool :=
  ((9 <=? c) && (c <=? 13) || (28 <=? c) && (c <=? 32)
   || (c =? 133) || (c =? 160) || (c =? 5760)
   || (8192 <=? c) && (c <=? 8202)
   || (c =? 8232) || (c =? 8233) || (c =? 8239) || (c =? 8287)
   || (c =? 12288))%N.

Fixpoint lstrip (s : pystr) : pystr :=
  match s with
  | c :: s' => if py_isspace c then lstrip s' else s
  | [] => []
  end.

(** [s.strip()] *)
Definition strip (s : pystr) : pystr := rev (lstrip (rev (lstrip s))).

(** [s[:n]]: slicing a [str] counts code points. *)
Definition slice_to (n : nat) (s : pystr) : pystr := take n s.

(** [s.encode("utf-8")], one code point. *)
Definition utf8_encode_char (c : N) : list N :=
  (if c <? 128 then [c]
   else if c <? 2048 then
     [N.lor 192 (N.shiftr c 6); N.lor 128 (N.land c 63)]
   else if c <? 65536 then
     [N.lor 224 (N.shiftr c 12); N.lor 128 (N.land (N.shiftr c 6) 63);
      N.lor 128 (N.land c 63)]
   else
     [N.lor 240 (N.shiftr c 18); N.lor 128 (N.land (N.shiftr c 12) 63);
      N.lor 128 (N.land (N.shiftr c 6) 63); N.lor 128 (N.land c 63)])%N.

Definition utf8_encode (s : pystr) : list N := concat (map utf8_encode_char s).

(** Values held by object attributes and template contexts. *)
Inductive PyVal :=
  | VNone
  | VInt (z : Z)
  | VStr (s : pystr)
  | VObj (name : string).  (* a class, function or library object *)

(** [a == b] on these values: numbers and strings by value, everything
    else by identity (a class or function defines no [__eq__]). *)
Definition py_eq (a b : PyVal) : bool :=
  match a, b with
  | VNone, VNone => true
  | VInt x, VInt y => x =? y
  | VStr x, VStr y => bool_decide (x = y)
  | VObj x, VObj y => String.eqb x y
  | _, _ => false
  end.

(** ** Exceptions *)

Inductive PyExc :=
  | NameError (name : string)
  | AttributeError (owner attr : string)
  | TypeError (what : string)
  | ValueError (what : string)
  | RuntimeError (msg : string)
  | ProgrammingError (what : string)
  | OverflowError (what : string)
  | OperationalError (what : string)
  | ArgumentError (what : string).

Inductive Result (A : Type) :=
  | Ok (a : A)
  | Raise (e : PyExc).
Arguments Ok {A} a.
Arguments Raise {A} e.

Definition is_raise {A} (r : Result A) : bool :=
  match r with Raise _ => true | Ok _ => false end.

(** ** Name resolution

    A name that is neither a parameter nor assigned in a function body is
    looked up among the module's globals and the builtins when the
    statement runs; a miss raises [NameError]. *)

(** Names bound at module level once [main.py] has been imported. *)
Definition module_globals : list string :=
  [ "os"; "datetime"; "Optional"; "FastAPI"; "Request"; "Form"; "Depends";
    "HTTPException"; "RedirectResponse"; "StaticFiles"; "Jinja2Templates";
    "CryptContext"; "SessionMiddleware"; "HTTP_303_SEE_OTHER"; "Column";
    "Integer"; "String"; "DateTime"; "ForeignKey"; "create_engine"; "Text";
    "sessionmaker"; "declarative_base"; "relationship"; "DBSession";
    "load_dotenv"; "DATABASE_URL"; "SECRET_KEY"; "pwd_context"; "engine";
    "SessionLocal"; "Base"; "User"; "Commitment"; "app"; "templates";
    "get_db"; "hash_password"; "verify_password"; "get_current_user";
    "home"; "signup_get"; "signup_post"; "login_get"; "login_post";
    "logout"; "dashboard"; "commitment_new_get"; "commitment_new_post";
    "commitment_resolve_get"; "commitment_resolve_post" ].

(** The builtins the handlers mention. *)
Definition builtins : list string :=
  [ "print"; "max"; "min"; "int"; "Exception"; "RuntimeError" ].

Definition name_in (x : string) (l : list string) : bool :=
  existsb (String.eqb x) l.

(** Load of a global name [x] inside a function whose parameters and
    assigned names are [locals]: the handlers load only classes, functions
    and library objects this way, each an opaque object. *)
Definition load_name (locals : list string) (x : string) : Result PyVal :=
  if name_in x locals || name_in x module_globals || name_in x builtins
  then Ok (VObj x) else Raise (NameError x).

(** Attribute access [obj.attr] on an object whose class provides [attrs]. *)
Definition load_attr (owner : string) (attrs : list string) (a : string)
  : Result unit :=
  if name_in a attrs then Ok tt else Raise (AttributeError owner a).

(** ** Data model: the two mapped classes *)

(** An SQL integer is a signed 64-bit integer at most: what an [Integer]
    column can hold, and what SQLite's driver accepts as a parameter. *)
Definition fits_int64 (z : Z) : bool := (- 2 ^ 63 <=? z) && (z <? 2 ^ 63).

Module User.
(** [class User(Base)]: the columns the class declares.  The primary key
    of a row is a value its [Integer] column holds. *)
Record t :=
  { id : Z; username : pystr; created_at : Z; id_fits : fits_int64 id }.

(** A row with the key [i], when the column can hold [i]. *)
Definition make (i : Z) (name : pystr) (created : Z) : option t :=
  match decide (Is_true (fits_int64 i)) with
  | left H =>
      Some {| id := i; username := name; created_at := created; id_fits := H |}
  | right _ => None
  end.

(** What [hasattr(User, k)] accepts: the mapped attributes and the
    attributes every declarative class inherits. *)
Definition attrs : list string :=
  [ "id"; "username"; "created_at"; "commitments";
    "metadata"; "registry"; "__tablename__"; "__table__"; "__mapper__" ].

(** [u.a] on a loaded row. *)
Definition getattr (u : t) (a : string) : Result PyVal :=
  if String.eqb a "id" then Ok (VInt (id u))
  else if String.eqb a "username" then Ok (VStr (username u))
  else if String.eqb a "created_at" then Ok (VInt (created_at u))
  else Raise (AttributeError "User" a).
End User.

Module Commitment.
(** [class Commitment(Base)]: the columns the class declares. *)
Record t :=
  { id : Z; user_id : Z; commitment_text : pystr; created_at : Z }.

Definition attrs : list string :=
  [ "id"; "user_id"; "commitment_text"; "created_at"; "user";
    "metadata"; "registry"; "__tablename__"; "__table__"; "__mapper__" ].

Definition getattr (c : t) (a : string) : Result PyVal :=
  if String.eqb a "id" then Ok (VInt (id c))
  else if String.eqb a "user_id" then Ok (VInt (user_id c))
  else if String.eqb a "commitment_text" then Ok (VStr (commitment_text c))
  else if String.eqb a "created_at" then Ok (VInt (created_at c))
  else Raise (AttributeError "Commitment" a).

(** [Commitment.a] used as a column in a query. *)
Definition column (a : string) : Result (t -> PyVal) :=
  if String.eqb a "id" then Ok (fun c => VInt (id c))
  else if String.eqb a "user_id" then Ok (fun c => VInt (user_id c))
  else if String.eqb a "commitment_text"
  then Ok (fun c => VStr (commitment_text c))
  else if String.eqb a "created_at" then Ok (fun c => VInt (created_at c))
  else Raise (AttributeError "type object 'Commitment'" a).
End Commitment.

#[global] Instance User_eq_dec : EqDecision User.t.
Proof.
  intros [i n c H] [i' n' c' H'].
  destruct (decide (i = i')) as [<-|]; [|right; congruence].
  destruct (decide (n = n')) as [<-|]; [|right; congruence].
  destruct (decide (c = c')) as [<-|]; [|right; congruence].
  left. f_equal. apply proof_irrel.
Defined.
#[global] Instance Commitment_eq_dec : EqDecision Commitment.t.
Proof. solve_decision. Defined.

(** The declarative constructor [cls(k=v, ...)] rejects a keyword that is
    not an attribute of the class. *)
Fixpoint construct (cls : string) (attrs kwargs : list string) : Result unit :=
  match kwargs with
  | [] => Ok tt
  | k :: rest =>
      if name_in k attrs then construct cls attrs rest
      else Raise (TypeError
                    (k +:+ " is an invalid keyword argument for " +:+ cls))
  end.

(** ** The database *)

(** The SQL backend the engine talks to.  [IntegerTruthy] is SQLite: it
    reads a bare integer column as "non-zero" where a condition is
    expected, and its driver binds a Python [int] as a signed 64-bit
    integer.  [BooleanStrict] is PostgreSQL: a bare integer column is a
    type error there, and its driver sends a Python [int] of any size as a
    numeric literal. *)
Inductive Dialect := IntegerTruthy | BooleanStrict.

Record Db :=
  { dialect : Dialect;
    users : list User.t;
    commitments : list Commitment.t }.

(** One positional argument of [Query.filter]. *)
Inductive Criterion (R : Type) :=
  | CrCompare (p : R -> bool)  (* a column comparison, [User.id == x] *)
  | CrColumn (f : R -> Z)      (* a bare integer column, [Commitment.id] *)
  | CrConst (b : bool).        (* a Python [bool], sent as SQL true/false *)
Arguments CrCompare {R} p.
Arguments CrColumn {R} f.
Arguments CrConst {R} b.

Definition criterion_test {R} (d : Dialect) (c : Criterion R)
  : Result (R -> bool) :=
  match c with
  | CrCompare p => Ok p
  | CrConst b => Ok (fun _ => b)
  | CrColumn f =>
      match d with
      | IntegerTruthy => Ok (fun r => negb (f r =? 0))
      | BooleanStrict =>
          Raise (ProgrammingError "argument of AND must be type boolean")
      end
  end.

(** The conjunction of the criteria, or the error the statement raises. *)
Fixpoint where_clause {R} (d : Dialect) (cs : list (Criterion R))
  : Result (R -> bool) :=
  match cs with
  | [] => Ok (fun _ => true)
  | c :: cs' =>
      match criterion_test d c with
      | Raise e => Raise e
      | Ok p =>
          match where_clause d cs' with
          | Raise e => Raise e
          | Ok q => Ok (fun r => p r && q r)
          end
      end
  end.

(** [db.query(R).filter(cs...).first()] *)
Definition query_first {R} (d : Dialect) (cs : list (Criterion R))
    (rows : list R) : Result (option R) :=
  match where_clause d cs with
  | Raise e => Raise e
  | Ok p => Ok (List.find p rows)
  end.

(** [db.query(R).filter(cs...)...all()] before ordering *)
Definition query_all {R} (d : Dialect) (cs : list (Criterion R))
    (rows : list R) : Result (list R) :=
  match where_clause d cs with
  | Raise e => Raise e
  | Ok p => Ok (List.filter p rows)
  end.

(** An integer parameter of a statement is bound when the statement runs:
    SQLite's driver raises [OverflowError] for a Python [int] outside the
    signed 64-bit range.  (The key of a loaded row is always in range, see
    [User.id_fits]; the one integer the handlers bind that comes from
    outside the database is the identifier held by the session.) *)
Definition int_too_large : PyExc :=
  OverflowError "Python int too large to convert to SQLite INTEGER".

Definition bind_integer (d : Dialect) (z : Z) : Result unit :=
  match d with
  | IntegerTruthy => if fits_int64 z then Ok tt else Raise int_too_large
  | BooleanStrict => Ok tt
  end.

(** The next value of an autoincrement primary key. *)
Definition next_id (ids : list Z) : Z := 1 + fold_right Z.max 0 ids.

(** ** Requests, responses and the handler monad *)

(** [request.session]: the signed cookie's dictionary.  The only key the
    program ever writes is ["user_id"], with an integer value. *)
Record Request := { session : gmap string Z }.

(** What a handler can read and change while it serves one request. *)
Record World :=
  { request : Request;
    db : Db;
    utcnow : Z;   (* [datetime.utcnow()], the default of [created_at] *)
    salt : N }.   (* the salt [pwd_context.hash] draws *)

Definition M (A : Type) : Type := World -> Result A * World.

#[global] Instance M_ret : MRet M := fun A a w => (Ok a, w).
#[global] Instance M_bind : MBind M := fun A B f m w =>
  match m w with
  | (Ok a, w') => f a w'
  | (Raise e, w') => (Raise e, w')
  end.

Definition lift {A} (r : Result A) : M A := fun w => (r, w).
Definition ask : M World := fun w => (Ok w, w).

(** [request.session[k] = v] *)
Definition session_set (k : string) (v : Z) : M unit := fun w =>
  (Ok tt, {| request := {| session := <[k := v]> (session (request w)) |};
             db := db w; utcnow := utcnow w; salt := salt w |}).

Definition put_db (d : Db) : M unit := fun w =>
  (Ok tt, {| request := request w; db := d; utcnow := utcnow w;
             salt := salt w |}).

(** [db.add(user); db.commit(); db.refresh(user)] for a new [User]. *)
Definition add_user (name : pystr) : M User.t :=
  w ← ask;
  let d := db w in
  match User.make (next_id (map User.id (users d))) name (utcnow w) with
  | None => lift (Raise (OperationalError "no key left for users.id"))
  | Some u =>
      _ ← put_db {| dialect := dialect d; users := users d ++ [u];
                    commitments := commitments d |};
      mret u
  end.

(** [db.add(commit); db.commit()] for a new [Commitment]. *)
Definition add_commitment (owner : Z) (text : pystr) : M Commitment.t :=
  w ← ask;
  let d := db w in
  let c := {| Commitment.id := next_id (map Commitment.id (commitments d));
              Commitment.user_id := owner;
              Commitment.commitment_text := text;
              Commitment.created_at := utcnow w |} in
  _ ← put_db {| dialect := dialect d; users := users d;
                commitments := commitments d ++ [c] |};
  mret c.

(** A value of a template context dictionary. *)
Inductive CtxVal :=
  | CNone
  | CStr (s : string)
  | CUser (u : User.t)
  | CCommitment (c : Commitment.t)
  | CCommitments (l : list Commitment.t).

(** The context dictionaries are written without their ["request"] entry. *)
Inductive Response :=
  | RedirectResponse (url : string) (status_code : Z)
  | TemplateResponse (name : string) (context : list (string * CtxVal)).

Definition HTTP_303_SEE_OTHER : Z := 303.
(** [RedirectResponse(url=...)] without a status code. *)
Definition HTTP_307_TEMPORARY_REDIRECT : Z := 307.

Fixpoint dict_get {V} (k : string) (d : list (string * V)) : option V :=
  match d with
  | [] => None
  | (k', v) :: d' => if String.eqb k k' then Some v else dict_get k d'
  end.

(** ** The outcomes the specification names

    A validation or credentials error re-renders the form with an inline
    message; a missing resource redirects to the dashboard without
    detail; a successful state-changing POST redirects there with 303. *)

Definition error_message (r : Result Response) : option string :=
  match r with
  | Ok (TemplateResponse _ ctx) =>
      match dict_get "error" ctx with
      | Some (CStr m) => Some m
      | _ => None
      end
  | _ => None
  end.

Definition is_validation_error (r : Result Response) : bool :=
  match error_message r with Some _ => true | None => false end.

Definition is_not_found (r : Result Response) : bool :=
  match r with
  | Ok (RedirectResponse url code) =>
      String.eqb url "/dashboard" && (code =? HTTP_307_TEMPORARY_REDIRECT)
  | _ => false
  end.

Definition is_success_redirect (r : Result Response) : bool :=
  match r with
  | Ok (RedirectResponse url code) =>
      String.eqb url "/dashboard" && (code =? HTTP_303_SEE_OTHER)
  | _ => false
  end.

#[global] Instance Result_ret : MRet Result := fun A a => Ok a.
#[global] Instance Result_bind : MBind Result := fun A B f r =>
  match r with
  | Ok a => f a
  | Raise e => Raise e
  end.

(** [not s] on a [str] *)
Definition str_is_empty (s : pystr) : bool :=
  match s with [] => true | _ => false end.

(** [x <= y] on the values an [order_by] key can hold here. *)
Definition py_le (a b : PyVal) : bool :=
  match a, b with
  | VInt x, VInt y => x <=? y
  | _, _ => true
  end.

Fixpoint insert_by {R} (key : R -> PyVal) (x : R) (l : list R) : list R :=
  match l with
  | [] => [x]
  | y :: l' => if py_le (key x) (key y) then x :: l
               else y :: insert_by key x l'
  end.

(** [.order_by(key.asc())] *)
Definition order_by {R} (key : R -> PyVal) (l : list R) : list R :=
  fold_right (insert_by key) [] l.

(** [max(0, min(100, n))], line 182. *)
Definition clamp_pct (n : Z) : Z := Z.max 0 (Z.min 100 n).

(** [(outcome_notes or "").strip() or None], line 231. *)
Definition normalise_notes (outcome_notes : option pystr) : option pystr :=
  let s := strip (default [] outcome_notes) in
  if str_is_empty s then None else Some s.

(** [status not in ("completed", "failed")] *)
Definition status_is_terminal (status : pystr) : bool :=
  pystr_eqb status (lit "completed") || pystr_eqb status (lit "failed").

(** The attributes of Starlette's [Request]: a read-only mapping over the
    connection scope. *)
Definition Request_attrs : list string :=
  [ "scope"; "app"; "url"; "base_url"; "headers"; "query_params";
    "path_params"; "cookies"; "client"; "session"; "auth"; "user"; "state";
    "url_for"; "method"; "receive"; "stream"; "body"; "json"; "form";
    "close"; "is_disconnected"; "send_push_promise";
    "get"; "keys"; "items"; "values" ].

(** ** Startup: the module body, lines 20-69 *)

(** What the module has set up once its import has succeeded. *)
Record App :=
  { engine_url : string;                 (* [create_engine(DATABASE_URL)] *)
    session_secret_key : option string }. (* [secret_key=SECRET_KEY] *)

(** The library calls of the module body that can fail, as the machine the
    program starts on answers them. *)
Record Libraries :=
  { (* [create_engine(DATABASE_URL, ...)], line 35: parses the URL and
       loads the driver *)
    create_engine : string -> Result unit;
    (* [Base.metadata.create_all(bind=engine)], line 59: connects *)
    create_all : string -> Result unit;
    (* [StaticFiles(directory="static")], line 69: checks the directory *)
    static_files : Result unit }.

(** The calls that follow the configuration check, in the order of the
    module body. *)
Definition library_calls (lib : Libraries) (url : string) : Result unit :=
  _ ← create_engine lib url;
  _ ← create_all lib url;
  static_files lib.

(** [load_dotenv()] adds the entries of [.env] the process environment
    does not already define. *)
Definition load_dotenv (dotenv environ : gmap string string)
  : gmap string string := environ ∪ dotenv.

Definition DATABASE_URL_missing : string :=
  "DATABASE_URL is not set. Please export it before running the app.".

Definition startup (lib : Libraries) (dotenv environ : gmap string string)
  : Result App :=
  let environ := load_dotenv dotenv environ in
  let DATABASE_URL := environ !! "DATABASE_URL" in
  match DATABASE_URL with
  | None | Some "" => Raise (RuntimeError DATABASE_URL_missing)
  | Some url =>
      let SECRET_KEY := environ !! "SECRET_KEY" in
      _ ← create_engine lib url;
      _ ← create_all lib url;
      let app := {| engine_url := url; session_secret_key := SECRET_KEY |} in
      _ ← static_files lib;
      Ok app
  end.

(** What the module body yields once the configuration check has let
    [url] and [secret] through. *)
Definition started (lib : Libraries) (url : string) (secret : option string)
  : Result App :=
  match library_calls lib url with
  | Raise e => Raise e
  | Ok _ => Ok {| engine_url := url; session_secret_key := secret |}
  end.

(** ** Auth helpers and routes *)

(** [get_current_user(request, db)], lines 87-91. *)
Definition get_current_user (request : Request) (db : Db)
  : Result (option User.t) :=
  let user_id := session request !! "user_id" in
  match user_id with
  | None => Ok None
  | Some user_id =>
      if user_id =? 0 then Ok None
      else
        _ ← bind_integer (dialect db) user_id;
        query_first (dialect db)
          [CrCompare (fun u => User.id u =? user_id)] (users db)
  end.

Definition login_redirect : Response :=
  RedirectResponse "/login" HTTP_307_TEMPORARY_REDIRECT.

Definition form_error (template msg : string) : Response :=
  TemplateResponse template [("error", CStr msg)].

Section App.

(** The password library and the two parsers the handlers call. *)
Variable pwd_hash : N -> pystr -> pystr.      (* [pwd_context.hash] *)
Variable pwd_verify : pystr -> pystr -> bool. (* [pwd_context.verify] *)
Variable fromisoformat : pystr -> option Z.   (* [datetime.fromisoformat] *)
Variable int_of_str : pystr -> option Z.      (* [int] on a [str] *)

(** [hash_password], lines 81-82. *)
Definition hash_password (salt : N) (password : pystr) : pystr :=
  pwd_hash salt (slice_to 72 password).

(** [verify_password], lines 84-85. *)
Definition verify_password (plain hashed : pystr) : bool :=
  pwd_verify (slice_to 72 plain) hashed.

Definition current_user : M (option User.t) :=
  w ← ask; lift (get_current_user (request w) (db w)).

(** [signup_post], lines 108-124. *)
Definition signup_post_locals : list string :=
  [ "request"; "username"; "password"; "existing"; "user" ].

Definition signup_post (username password : pystr) : M Response :=
  let username := strip username in
  if str_is_empty username || str_is_empty password then
    mret (form_error "signup.html" "Username and password required.")
  else
    _ ← lift (load_name signup_post_locals "db");
    w ← ask;
    existing ← lift (query_first (dialect (db w))
                 [CrCompare (fun u => pystr_eqb (User.username u) username)]
                 (users (db w)));
    match existing with
    | Some _ => mret (form_error "signup.html" "Username already exists.")
    | None =>
        let password_hash := hash_password (salt w) password in
        _ ← lift (construct "User" User.attrs ["username"; "password_hash"]);
        user ← add_user username;
        _ ← session_set "user_id" (User.id user);
        mret (RedirectResponse "/dashboard" HTTP_303_SEE_OTHER)
    end.

(** [login_post], lines 131-138. *)
Definition login_post_locals : list string :=
  [ "request"; "username"; "password"; "user" ].

Definition login_post (username password : pystr) : M Response :=
  _ ← lift (load_name login_post_locals "db");
  w ← ask;
  user ← lift (query_first (dialect (db w))
           [CrCompare (fun u => pystr_eqb (User.username u) username)]
           (users (db w)));
  let invalid := form_error "login.html" "Invalid credentials." in
  match user with
  | None => mret invalid
  | Some user =>
      hashed ← lift (User.getattr user "password_hash");
      match hashed with
      | VStr hashed =>
          if negb (verify_password password hashed) then mret invalid
          else
            _ ← session_set "user_id" (User.id user);
            mret (RedirectResponse "/dashboard" HTTP_303_SEE_OTHER)
      | _ => lift (Raise (TypeError "hash must be unicode or bytes"))
      end
  end.

(** [logout], lines 141-144: the call is [request.clear()]. *)
Definition logout : M Response :=
  _ ← lift (load_attr "Request" Request_attrs "clear");
  mret (RedirectResponse "/login" HTTP_303_SEE_OTHER).

(** [dashboard], lines 147-154. *)
Definition dashboard_locals : list string :=
  [ "request"; "db"; "user"; "commitments" ].

Definition dashboard : M Response :=
  user ← current_user;
  match user with
  | None => mret login_redirect
  | Some user =>
      w ← ask;
      user_id ← lift (load_name dashboard_locals "user_id");
      deadline ← lift (Commitment.column "deadline");
      rows ← lift (query_all (dialect (db w))
               [CrConst (py_eq user_id (VInt (User.id user)))]
               (commitments (db w)));
      mret (TemplateResponse "dashboard.html"
              [("user", CUser user);
               ("commitments", CCommitments (order_by deadline rows))])
  end.

(** [commitment_new_post], lines 164-193. *)
Definition commitment_new_post_locals : list string :=
  [ "request"; "commitment_text"; "db"; "user"; "dt"; "pct"; "commit" ].

(** The body of the [try], line 178. *)
Definition parse_deadline : Result Z :=
  deadline ← load_name commitment_new_post_locals "deadline";
  match deadline with
  | VStr s =>
      match fromisoformat s with
      | Some dt => Ok dt
      | None => Raise (ValueError "Invalid isoformat string")
      end
  | _ => Raise (TypeError "fromisoformat: argument must be str")
  end.

(** [int(x)] *)
Definition py_int (x : PyVal) : Result Z :=
  match x with
  | VInt z => Ok z
  | VStr s =>
      match int_of_str s with
      | Some z => Ok z
      | None => Raise (ValueError "invalid literal for int()")
      end
  | _ => Raise (TypeError "int() argument must be a string or a number")
  end.

Definition commitment_new_post (commitment_text : pystr) : M Response :=
  user ← current_user;
  match user with
  | None => mret login_redirect
  | Some user =>
      if str_is_empty (strip commitment_text) then
        mret (form_error "commitment_new.html" "Commitment text required.")
      else
        match parse_deadline with
        | Raise _ =>   (* [except Exception] *)
            mret (form_error "commitment_new.html" "Invalid deadline format.")
        | Ok dt =>
            declared ← lift (load_name commitment_new_post_locals
                               "declared_confidence_pct");
            n ← lift (py_int declared);
            let pct := clamp_pct n in
            _ ← lift (construct "Commitment" Commitment.attrs
                   [ "user_id"; "commitment_text";
                     "declared_confidence_pct"; "deadline" ]);
            _ ← add_commitment (User.id user) (strip commitment_text);
            mret (RedirectResponse "/dashboard" HTTP_303_SEE_OTHER)
        end
  end.

(** [commitment_resolve_get], lines 196-206: the first criterion is the
    bare column [Commitment.id]; [commitment_id] is not used. *)
Definition commitment_resolve_get (commitment_id : Z) : M Response :=
  user ← current_user;
  match user with
  | None => mret login_redirect
  | Some user =>
      w ← ask;
      commit ← lift (query_first (dialect (db w))
                 [ CrColumn Commitment.id;
                   CrCompare (fun c => Commitment.user_id c =? User.id user) ]
                 (commitments (db w)));
      match commit with
      | None =>
          mret (RedirectResponse "/dashboard" HTTP_307_TEMPORARY_REDIRECT)
      | Some commit =>
          mret (TemplateResponse "commitment_resolve.html"
                  [("commitment", CCommitment commit); ("error", CNone)])
      end
  end.

(** [commitment_resolve_post], lines 208-234: the second criterion is the
    Python comparison [Commitment == user.id] of the class with a number. *)
Definition commitment_resolve_post_locals : list string :=
  [ "request"; "commitment_id"; "status"; "outcome_notes"; "db"; "user";
    "commit" ].

Definition resolve_error (commit : Commitment.t) (msg : string) : Response :=
  TemplateResponse "commitment_resolve.html"
    [("commitment", CCommitment commit); ("error", CStr msg)].

Definition commitment_resolve_post (commitment_id : Z) (status : pystr)
    (outcome_notes : option pystr) : M Response :=
  user ← current_user;
  match user with
  | None => mret login_redirect
  | Some user =>
      w ← ask;
      cls ← lift (load_name commitment_resolve_post_locals "Commitment");
      commit ← lift (query_first (dialect (db w))
                 [ CrCompare (fun c => Commitment.id c =? commitment_id);
                   CrConst (py_eq cls (VInt (User.id user))) ]
                 (commitments (db w)));
      match commit with
      | None =>
          mret (RedirectResponse "/dashboard" HTTP_307_TEMPORARY_REDIRECT)
      | Some commit =>
          current ← lift (Commitment.getattr commit "status");
          if negb (py_eq current (VStr (lit "open"))) then
            mret (resolve_error commit
                    "Only open commitments can be resolved.")
          else if negb (status_is_terminal status) then
            mret (resolve_error commit "Invalid status selected.")
          else
            (* [commit.status] and [commit.outcome_notes] are not mapped
               columns: the assignments bind plain instance attributes
               and [db.commit()] has nothing to write. *)
            let notes := normalise_notes outcome_notes in
            mret (RedirectResponse "/dashboard" HTTP_303_SEE_OTHER)
      end
  end.

(** *** The remaining routes *)

(** Binding of [nargs] positional arguments to the parameters [params] of
    a function that declares no defaults. *)
Definition bind_positional (fname : string) (params : list string)
    (nargs : nat) : Result unit :=
  if (nargs <? length params)%nat then
    Raise (TypeError (fname +:+ "() missing required positional argument"))
  else if (length params <? nargs)%nat then
    Raise (TypeError (fname +:+ "() takes fewer positional arguments"))
  else Ok tt.

(** [def get_current_user(request: Request, db: DBSession)] *)
Definition get_current_user_params : list string := [ "request"; "db" ].

(** The attributes of Starlette's [Jinja2Templates]. *)
Definition Jinja2Templates_attrs : list string :=
  [ "env"; "context_processors"; "get_template"; "TemplateResponse" ].

(** [home], lines 96-101: the call is [get_current_user(request)], one
    argument for two parameters. *)
Definition home : M Response :=
  _ ← lift (bind_positional "get_current_user" get_current_user_params 1);
  user ← current_user;
  match user with
  | Some _ =>
      mret (RedirectResponse "/dashboard" HTTP_307_TEMPORARY_REDIRECT)
  | None => mret login_redirect
  end.

(** [signup_get], lines 104-106. *)
Definition signup_get : M Response :=
  mret (TemplateResponse "signup.html" [("error", CNone)]).

(** [login_get], lines 127-129: the attribute is [templates.Templateresponse]. *)
Definition login_get : M Response :=
  _ ← lift (load_attr "Jinja2Templates" Jinja2Templates_attrs
              "Templateresponse");
  mret (TemplateResponse "login.html" [("error", CNone)]).

(** [commitment_new_get], lines 157-162. *)
Definition commitment_new_get : M Response :=
  user ← current_user;
  match user with
  | None => mret login_redirect
  | Some _ => mret (TemplateResponse "commitment_new.html" [("error", CNone)])
  end.

End App.


(** ** Concrete worlds used in the examples below *)

Definition alice : User.t :=
  {| User.id := 1; User.username := lit "alice"; User.created_at := 0;
     User.id_fits := I |}.

Definition bob : User.t :=
  {| User.id := 2; User.username := lit "bob"; User.created_at := 0;
     User.id_fits := I |}.

Definition alice_report : Commitment.t :=
  {| Commitment.id := 1; Commitment.user_id := 1;
     Commitment.commitment_text := lit "finish report";
     Commitment.created_at := 10 |}.

Definition bob_taxes : Commitment.t :=
  {| Commitment.id := 2; Commitment.user_id := 2;
     Commitment.commitment_text := lit "file taxes";
     Commitment.created_at := 20 |}.

Definition two_users (d : Dialect) : Db :=
  {| dialect := d; users := [alice; bob];
     commitments := [alice_report; bob_taxes] |}.

Definition no_users (d : Dialect) : Db :=
  {| dialect := d; users := []; commitments := [] |}.

Definition anonymous : Request := {| session := ∅ |}.
Definition as_alice : Request := {| session := {[ "user_id" := 1 ]} |}.

(** A session whose identifier is one more than the largest signed 64-bit
    integer. *)
Definition beyond_int64 : Request :=
  {| session := {[ "user_id" := 2 ^ 63 ]} |}.

Definition world (r : Request) (d : Db) : World :=
  {| request := r; db := d; utcnow := 100; salt := 7%N |}.

(** A password library for the examples that treats its secret as bcrypt
    does: it encodes the secret as UTF-8 and uses the first 72 bytes only.
    The "hash" is the salt followed by these bytes. *)
Definition toy_hash (salt : N) (secret : pystr) : pystr :=
  salt :: take 72 (utf8_encode secret).
Definition toy_verify (secret hashed : pystr) : bool :=
  bool_decide (tail hashed = take 72 (utf8_encode secret)).

(** 36 copies of U+00E9 (two UTF-8 bytes each: 72 bytes), then one more
    character. *)
Definition accents : pystr := repeat 233%N 36.
Definition accents_a : pystr := (accents ++ lit "a")%list.

(** 72 ASCII characters, then different tails. *)
Definition long_a : pystr := (repeat 97%N 72 ++ lit "x")%list.
Definition long_b : pystr := (repeat 97%N 72 ++ lit "yz")%list.

Definition env_empty_url : gmap string string := {[ "DATABASE_URL" := "" ]}.
Definition env_sqlite : gmap string string :=
  {[ "DATABASE_URL" := "sqlite:///app.db" ]}.

(** A [.env] file and process environments for the startup examples. *)
Definition dotenv_postgres : gmap string string :=
  {[ "DATABASE_URL" := "postgresql://db/app"; "SECRET_KEY" := "from-dotenv" ]}.

Definition env_not_a_url : gmap string string :=
  {[ "DATABASE_URL" := "not-a-url"; "SECRET_KEY" := "s" ]}.

(** A machine on which every library call of the module body succeeds, and
    one whose [create_engine] cannot parse the URL it is given. *)
Definition libraries_ok : Libraries :=
  {| create_engine := fun _ => Ok tt;
     create_all := fun _ => Ok tt;
     static_files := Ok tt |}.

Definition libraries_bad_url : Libraries :=
  {| create_engine := fun url =>
       Raise (ArgumentError
                ("Could not parse SQLAlchemy URL from given URL string"));
     create_all := fun _ => Ok tt;
     static_files := Ok tt |}.

(** A signed-in world whose session was written by [session_set]. *)
Definition bob_signs_in : World :=
  snd (session_set "user_id" (User.id bob)
         (world anonymous (two_users IntegerTruthy))).

(** Blank form input: a space, a tab and a no-break space. *)
Definition blank : pystr := [32; 9; 160]%N.

(** The answer to a request for a commitment that was not found. *)
Definition not_found_redirect : Response :=
  RedirectResponse "/dashboard" HTTP_307_TEMPORARY_REDIRECT.

(** The condition of the query of [commitment_resolve_get] on one row, where
    the backend reads the bare column [Commitment.id] as "non-zero". *)
Definition owned_row (u : User.t) (c : Commitment.t) : bool :=
  negb (Commitment.id c =? 0) && ((Commitment.user_id c =? User.id u) && true).

(** * Properties *)

(** ** How the handlers behave on every input *)

Lemma bind_lift_raise {A B} (e : PyExc) (k : A -> M B) (w : World) :
  (lift (Raise e) ≫= k) w = (Raise e, w).
Proof. reflexivity. Qed.

Lemma bind_lift_ok {A B} (a : A) (k : A -> M B) (w : World) :
  (lift (Ok a) ≫= k) w = k a w.
Proof. reflexivity. Qed.

Lemma current_user_run (w : World) :
  current_user w = (get_current_user (request w) (db w), w).
Proof. reflexivity. Qed.

(** [signup_post] has no [db] parameter: once both fields are non-empty the
    load of [db] raises. *)
Lemma signup_post_nonempty pwd_hash (username password : pystr) (w : World) :
  str_is_empty (strip username) = false ->
  str_is_empty password = false ->
  signup_post pwd_hash username password w = (Raise (NameError "db"), w).
Proof.
  intros Hu Hp. unfold signup_post. rewrite Hu, Hp. reflexivity.
Qed.

Lemma signup_post_empty pwd_hash (username password : pystr) (w : World) :
  str_is_empty (strip username) || str_is_empty password = true ->
  signup_post pwd_hash username password w =
    (Ok (form_error "signup.html" "Username and password required."), w).
Proof.
  intros H. unfold signup_post. rewrite H. reflexivity.
Qed.

(** [login_post] has no [db] parameter either. *)
Lemma login_post_raises pwd_verify (username password : pystr) (w : World) :
  login_post pwd_verify username password w = (Raise (NameError "db"), w).
Proof. reflexivity. Qed.

Lemma logout_raises (w : World) :
  logout w = (Raise (AttributeError "Request" "clear"), w).
Proof. reflexivity. Qed.

Lemma dashboard_signed_in (w : World) (u : User.t) :
  get_current_user (request w) (db w) = Ok (Some u) ->
  dashboard w = (Raise (NameError "user_id"), w).
Proof.
  intros H. unfold dashboard.
  change (current_user ≫= ?k) with (fun w0 => match current_user w0 with
    | (Ok a, w') => k a w' | (Raise e, w') => (Raise e, w') end).
  cbv beta. rewrite current_user_run, H. reflexivity.
Qed.

Lemma bind_run {A B} (m : M A) (k : A -> M B) (w : World) :
  (m ≫= k) w =
  match m w with
  | (Ok a, w') => k a w'
  | (Raise e, w') => (Raise e, w')
  end.
Proof. reflexivity. Qed.

(** The [try] of [commitment_new_post] always takes its [except] branch:
    [deadline] is not bound. *)
Lemma parse_deadline_raises fromisoformat :
  parse_deadline fromisoformat = Raise (NameError "deadline").
Proof. reflexivity. Qed.

(** [commitment_new_post] never reaches [db.add]: it answers with a
    redirect to the login page or with a form error, and the database and
    the session are as they were. *)
Lemma commitment_new_post_run fromisoformat int_of_str
    (commitment_text : pystr) (w : World) :
  commitment_new_post fromisoformat int_of_str commitment_text w =
  (match get_current_user (request w) (db w) with
   | Raise e => Raise e
   | Ok None => Ok login_redirect
   | Ok (Some _) =>
       if str_is_empty (strip commitment_text)
       then Ok (form_error "commitment_new.html" "Commitment text required.")
       else Ok (form_error "commitment_new.html" "Invalid deadline format.")
   end, w).
Proof.
  unfold commitment_new_post. rewrite bind_run, current_user_run.
  destruct (get_current_user (request w) (db w)) as [[u|]|e]; try reflexivity.
  destruct (str_is_empty (strip commitment_text)); reflexivity.
Qed.

(** The second criterion of [commitment_resolve_post] is the constant
    [False], so the query selects no row. *)
Lemma resolve_post_query_empty (d : Dialect) (commitment_id uid : Z)
    (rows : list Commitment.t) :
  query_first d
    [ CrCompare (fun c => Commitment.id c =? commitment_id);
      CrConst (py_eq (VObj "Commitment") (VInt uid)) ] rows = Ok None.
Proof.
  unfold query_first. cbn.
  induction rows as [|c rows IH]; cbn; [reflexivity|].
  rewrite andb_false_r. exact IH.
Qed.

Lemma commitment_resolve_post_signed_in (commitment_id : Z) (status : pystr)
    (outcome_notes : option pystr) (w : World) (u : User.t) :
  get_current_user (request w) (db w) = Ok (Some u) ->
  commitment_resolve_post commitment_id status outcome_notes w =
    (Ok (RedirectResponse "/dashboard" HTTP_307_TEMPORARY_REDIRECT), w).
Proof.
  intros H. unfold commitment_resolve_post.
  rewrite bind_run, current_user_run, H.
  rewrite bind_run. cbn [ask].
  change (load_name commitment_resolve_post_locals "Commitment")
    with (Ok (VObj "Commitment") : Result PyVal).
  rewrite bind_lift_ok, bind_run. unfold lift at 1.
  rewrite resolve_post_query_empty. reflexivity.
Qed.

(** [commitment_resolve_get] does not look at [commitment_id]. *)
Lemma commitment_resolve_get_ignores_id (id1 id2 : Z) (w : World) :
  commitment_resolve_get id1 w = commitment_resolve_get id2 w.
Proof. reflexivity. Qed.

(** No handler reached through these routes writes to the database or to
    the session. *)
Lemma commitment_resolve_post_keeps_world (commitment_id : Z)
    (status : pystr) (outcome_notes : option pystr) (w : World) :
  snd (commitment_resolve_post commitment_id status outcome_notes w) = w.
Proof.
  unfold commitment_resolve_post. rewrite bind_run, current_user_run.
  destruct (get_current_user (request w) (db w)) as [[u|]|e] eqn:E;
    try reflexivity.
  rewrite bind_run. cbn [ask].
  change (load_name commitment_resolve_post_locals "Commitment")
    with (Ok (VObj "Commitment") : Result PyVal).
  rewrite bind_lift_ok, bind_run. unfold lift at 1.
  rewrite resolve_post_query_empty. reflexivity.
Qed.

(** ** The session lookup *)

Lemma query_first_compare {R} (d : Dialect) (p : R -> bool) (rows : list R) :
  query_first d [CrCompare p] rows = Ok (List.find (fun r => p r && true) rows).
Proof. reflexivity. Qed.

Lemma bind_integer_fits (d : Dialect) (z : Z) :
  fits_int64 z = true -> bind_integer d z = Ok tt.
Proof. intros H. destruct d; cbn; [rewrite H|]; reflexivity. Qed.

Lemma get_current_user_run (request : Request) (db : Db) :
  get_current_user request db =
  match session request !! "user_id" with
  | None => Ok None
  | Some uid =>
      if uid =? 0 then Ok None
      else
        match bind_integer (dialect db) uid with
        | Raise e => Raise e
        | Ok _ =>
            Ok (List.find (fun u => (User.id u =? uid) && true) (users db))
        end
  end.
Proof.
  unfold get_current_user.
  destruct (session request !! "user_id") as [uid|]; [|reflexivity].
  destruct (uid =? 0); [reflexivity|].
  destruct (bind_integer (dialect db) uid); reflexivity.
Qed.

(** The lookup raises in one case only: on SQLite, for a session
    identifier outside the signed 64-bit range. *)
Lemma get_current_user_raises (request : Request) (db : Db) (e : PyExc) :
  get_current_user request db = Raise e ->
  e = int_too_large /\ dialect db = IntegerTruthy /\
  exists uid, session request !! "user_id" = Some uid /\
              fits_int64 uid = false.
Proof.
  rewrite get_current_user_run.
  destruct (session request !! "user_id") as [uid|]; [|discriminate].
  destruct (uid =? 0); [discriminate|].
  unfold bind_integer. destruct (dialect db); [|discriminate].
  destruct (fits_int64 uid) eqn:Hfit; [discriminate|].
  intros [= <-]. eauto.
Qed.

(** C8, as the code has it.  For every database and every session whose
    user identifier, if it holds one, fits a signed 64-bit integer (as every
    key of the [users] table does), [get_current_user] returns a value and
    does not raise.  The value is either a user of the database whose
    identifier is the one the session holds, or none; it is none when the
    session holds no user identifier (absent or expired session) and when
    no user has the identifier the session holds (deleted user); and a
    session holding the non-zero identifier of a stored user yields a user
    with that identifier. *)
Theorem get_current_user_total_within_int64 (request : Request) (db : Db) :
  (forall uid, session request !! "user_id" = Some uid ->
     fits_int64 uid = true) ->
  exists r : option User.t,
    get_current_user request db = Ok r /\
    (forall u, r = Some u ->
       In u (users db) /\ session request !! "user_id" = Some (User.id u)) /\
    (session request !! "user_id" = None -> r = None) /\
    (forall uid, session request !! "user_id" = Some uid ->
       (forall u, In u (users db) -> User.id u <> uid) -> r = None) /\
    (forall uid u, session request !! "user_id" = Some uid -> uid <> 0 ->
       In u (users db) -> User.id u = uid ->
       exists u', r = Some u' /\ User.id u' = uid /\ In u' (users db)).
Proof.
  intros Hfit. rewrite get_current_user_run.
  destruct (session request !! "user_id") as [uid|] eqn:Hs.
  - destruct (uid =? 0) eqn:Hz.
    + eexists. split; [reflexivity|].
      repeat split; try discriminate; try reflexivity.
      intros uid' u [= <-] Hne. apply Z.eqb_eq in Hz. contradiction.
    + rewrite (bind_integer_fits _ _ (Hfit uid eq_refl)).
      eexists. split; [reflexivity|]. repeat split.
      * apply find_some in H. tauto.
      * apply find_some in H. destruct H as [_ H].
        rewrite andb_true_r in H. apply Z.eqb_eq in H. congruence.
      * discriminate.
      * intros uid' [= <-] Hall.
        destruct (List.find _ (users db)) as [u|] eqn:Hf; [|reflexivity].
        apply find_some in Hf. destruct Hf as [Hin Hid].
        rewrite andb_true_r in Hid. apply Z.eqb_eq in Hid.
        exfalso. exact (Hall u Hin Hid).
      * intros uid' u [= <-] _ Hin Hid.
        destruct (List.find _ (users db)) as [u'|] eqn:Hf.
        -- exists u'. apply find_some in Hf. destruct Hf as [Hin' Hid'].
           rewrite andb_true_r in Hid'. apply Z.eqb_eq in Hid'. auto.
        -- exfalso. apply (find_none _ _ Hf) in Hin.
           rewrite andb_true_r in Hin. apply Z.eqb_neq in Hin. auto.
  - eexists. split; [reflexivity|].
    repeat split; try discriminate; reflexivity.
Qed.

Lemma get_current_user_total_within_int64_witness :
  get_current_user as_alice (two_users IntegerTruthy) = Ok (Some alice) /\
  get_current_user anonymous (two_users IntegerTruthy) = Ok None.
Proof.
  split.
  - destruct (get_current_user_total_within_int64 as_alice
                (two_users IntegerTruthy))
      as (r & Hr & _ & _ & _ & Hfound).
    + intros uid H. vm_compute in H. injection H as <-. reflexivity.
    + rewrite Hr. f_equal.
      destruct (Hfound 1 alice) as (u' & -> & Hid & Hin).
      * reflexivity.
      * lia.
      * left; reflexivity.
      * reflexivity.
      * destruct Hin as [<-|[<-|[]]];
          [reflexivity | vm_compute in Hid; discriminate Hid].
  - destruct (get_current_user_total_within_int64 anonymous
                (two_users IntegerTruthy))
      as (r & Hr & _ & Hnone & _).
    + intros uid H. vm_compute in H. discriminate.
    + rewrite Hr, Hnone; reflexivity.
Defined.

(** C8, as stated, fails: a session can hold an identifier that SQLite's
    driver cannot bind.  With the identifier 2^63 the query of
    [get_current_user] raises [OverflowError]; the function has no handler
    for it, so the lookup raises instead of returning none. *)
Lemma get_current_user_overflows :
  session beyond_int64 !! "user_id" = Some (2 ^ 63) /\
  get_current_user beyond_int64 (two_users IntegerTruthy)
  = Raise int_too_large /\
  ~ (exists r : option User.t,
       get_current_user beyond_int64 (two_users IntegerTruthy) = Ok r).
Proof.
  assert (E : get_current_user beyond_int64 (two_users IntegerTruthy)
              = Raise int_too_large) by reflexivity.
  split; [reflexivity|]. split; [exact E|].
  intros [r H]. rewrite E in H. discriminate.
Qed.

(** ** Password hashing *)

Lemma utf8_encode_char_length (c : N) :
  (1 <= length (utf8_encode_char c) <= 4)%nat.
Proof.
  unfold utf8_encode_char.
  destruct (c <? 128)%N; [cbn; lia|].
  destruct (c <? 2048)%N; [cbn; lia|].
  destruct (c <? 65536)%N; cbn; lia.
Qed.

Lemma utf8_encode_length (s : pystr) :
  (length s <= length (utf8_encode s) <= 4 * length s)%nat.
Proof.
  unfold utf8_encode. induction s as [|c s IH]; cbn; [lia|].
  rewrite length_app. pose proof (utf8_encode_char_length c). lia.
Qed.





(** The slice of lines 82 and 85 counts characters: of the 37 characters
    (73 bytes) of the password below it removes nothing, and the library
    is handed all 73 bytes. *)
Lemma slice_counts_characters :
  slice_to 72 accents_a = accents_a /\
  length (utf8_encode (slice_to 72 accents_a)) = 73%nat.
Proof. split; reflexivity. Qed.



(** ** Startup *)

Lemma startup_started (lib : Libraries) (dotenv environ : gmap string string)
    (url : string) :
  load_dotenv dotenv environ !! "DATABASE_URL" = Some url -> url <> "" ->
  startup lib dotenv environ =
  started lib url (load_dotenv dotenv environ !! "SECRET_KEY").
Proof.
  intros E Hne. unfold startup, started, library_calls. rewrite E.
  destruct url as [|c url]; [contradiction|]. cbn.
  destruct (create_engine lib (String c url)); [|reflexivity]. cbn.
  destruct (create_all lib (String c url)); [|reflexivity]. cbn.
  destruct (static_files lib); reflexivity.
Qed.

Lemma startup_unset_or_empty (lib : Libraries)
    (dotenv environ : gmap string string) :
  load_dotenv dotenv environ !! "DATABASE_URL" = None \/
  load_dotenv dotenv environ !! "DATABASE_URL" = Some "" ->
  startup lib dotenv environ = Raise (RuntimeError DATABASE_URL_missing).
Proof. unfold startup. intros [-> | ->]; reflexivity. Qed.

(** C10, as the code has it.  The configuration check of lines 25-27
    raises its error when [DATABASE_URL] is unset and also when it is set
    to the empty string (the test is [not DATABASE_URL]), before any
    library is called.  With a non-empty [DATABASE_URL] the module body
    goes on to [create_engine], [create_all] and [StaticFiles]: startup
    raises what the first failing call raises, and succeeds when none
    fails, whatever [SECRET_KEY] is; the session middleware then gets
    [SECRET_KEY] as it was read, which is no secret at all when the
    variable is absent.  So startup raises exactly when [DATABASE_URL] is
    unset or empty or one of these calls fails, and, as long as no library
    call raises the configuration error itself, it raises that error
    exactly when [DATABASE_URL] is unset or empty. *)
Theorem startup_fatal_iff_no_database_url
    (lib : Libraries) (dotenv environ : gmap string string) :
  let env := load_dotenv dotenv environ in
  let unset_or_empty :=
    env !! "DATABASE_URL" = None \/ env !! "DATABASE_URL" = Some "" in
  (unset_or_empty ->
     startup lib dotenv environ = Raise (RuntimeError DATABASE_URL_missing)) /\
  (forall url, env !! "DATABASE_URL" = Some url -> url <> "" ->
     startup lib dotenv environ = started lib url (env !! "SECRET_KEY")) /\
  (is_raise (startup lib dotenv environ) = true <->
     unset_or_empty \/
     exists url, env !! "DATABASE_URL" = Some url /\
                 is_raise (library_calls lib url) = true) /\
  ((forall url, library_calls lib url
                <> Raise (RuntimeError DATABASE_URL_missing)) ->
     (startup lib dotenv environ = Raise (RuntimeError DATABASE_URL_missing)
      <-> unset_or_empty)) /\
  (forall url, env !! "DATABASE_URL" = Some url -> url <> "" ->
     env !! "SECRET_KEY" = None -> library_calls lib url = Ok tt ->
     startup lib dotenv environ =
       Ok {| engine_url := url; session_secret_key := None |}).
Proof.
  intros env unset_or_empty.
  pose proof (startup_unset_or_empty lib dotenv environ) as Hbad.
  pose proof (startup_started lib dotenv environ) as Hgood.
  fold env in Hbad, Hgood. fold unset_or_empty in Hbad.
  split; [exact Hbad|]. split; [exact Hgood|].
  destruct (env !! "DATABASE_URL") as [url|] eqn:E.
  - destruct (decide (url = "")) as [->|Hne].
    + assert (Hu : unset_or_empty) by (right; reflexivity).
      rewrite (Hbad Hu). split; [|split].
      * split; auto.
      * intros _. split; auto.
      * intros url [= <-] Hne. contradiction.
    + rewrite (Hgood url eq_refl Hne). unfold started. split; [|split].
      * split.
        -- intros H. right. exists url. split; [reflexivity|].
           destruct (library_calls lib url); [discriminate|reflexivity].
        -- intros [[H|H]|(url' & [= <-] & H)]; try congruence.
           destruct (library_calls lib url); [discriminate|reflexivity].
      * intros Hlib. split.
        -- intros H. exfalso. apply (Hlib url).
           destruct (library_calls lib url); [discriminate|congruence].
        -- intros [H|H]; congruence.
      * intros url' [= <-] _ -> ->. reflexivity.
  - assert (Hu : unset_or_empty) by (left; reflexivity).
    rewrite (Hbad Hu). split; [|split].
    + split; auto.
    + intros _. split; auto.
    + intros url [=].
Qed.

Lemma startup_fatal_iff_no_database_url_witness :
  startup libraries_ok ∅ env_sqlite =
    Ok {| engine_url := "sqlite:///app.db"; session_secret_key := None |} /\
  startup libraries_bad_url ∅ env_not_a_url =
    started libraries_bad_url "not-a-url" (Some "s") /\
  startup libraries_ok ∅ ∅ = Raise (RuntimeError DATABASE_URL_missing).
Proof.
  split; [|split].
  - destruct (startup_fatal_iff_no_database_url libraries_ok ∅ env_sqlite)
      as (_ & _ & _ & _ & Hok).
    apply Hok.
    + reflexivity.
    + discriminate.
    + reflexivity.
    + reflexivity.
  - destruct (startup_fatal_iff_no_database_url libraries_bad_url ∅
                env_not_a_url) as (_ & Hrun & _).
    apply (Hrun "not-a-url").
    + reflexivity.
    + discriminate.
  - destruct (startup_fatal_iff_no_database_url libraries_ok ∅ ∅)
      as (Hbad & _).
    apply Hbad. left. reflexivity.
Defined.

(** C10, as stated, fails: with [DATABASE_URL] set to the empty string the
    variable is set, and startup raises the configuration error all the
    same, before it calls any library. *)
Lemma startup_raises_on_empty_database_url :
  load_dotenv ∅ env_empty_url !! "DATABASE_URL" = Some "" /\
  startup libraries_ok ∅ env_empty_url
  = Raise (RuntimeError DATABASE_URL_missing) /\
  ~ (is_raise (startup libraries_ok ∅ env_empty_url) = true <->
     load_dotenv ∅ env_empty_url !! "DATABASE_URL" = None).
Proof.
  assert (E : load_dotenv ∅ env_empty_url !! "DATABASE_URL" = Some "")
    by reflexivity.
  split; [exact E|]. split; [reflexivity|].
  intros [H _]. rewrite E in H. specialize (H eq_refl). discriminate.
Qed.

(** ** Where the handlers part from the specification *)

Lemma alice_signed_in (d : Dialect) :
  get_current_user as_alice (two_users d) = Ok (Some alice).
Proof. destruct d; reflexivity. Qed.

(** The clamp expression of line 182 is in range and fixes what is in
    range; line 182 is never reached (see C3). *)
Lemma clamp_pct_spec (n : Z) :
  0 <= clamp_pct n <= 100 /\
  (n < 0 -> clamp_pct n = 0) /\
  (100 < n -> clamp_pct n = 100) /\
  (0 <= n <= 100 -> clamp_pct n = n).
Proof. unfold clamp_pct. lia. Qed.

(** C1. The owner resolves her own commitment: whatever status and notes
    she submits, on either SQL dialect, [commitment_resolve_post] answers
    with the redirect to the dashboard it uses for a commitment it did not
    find, never with a validation error and never with the success
    redirect; the row carries no [status] attribute to test. *)
Theorem resolve_post_by_owner_is_not_found
    (d : Dialect) (status : pystr) (outcome_notes : option pystr) :
  let w := world as_alice (two_users d) in
  let r := commitment_resolve_post (Commitment.id alice_report) status
             outcome_notes w in
  get_current_user (request w) (db w) = Ok (Some alice) /\
  In alice_report (commitments (db w)) /\
  Commitment.user_id alice_report = User.id alice /\
  r = (Ok (RedirectResponse "/dashboard" HTTP_307_TEMPORARY_REDIRECT), w) /\
  is_not_found (fst r) = true /\
  is_validation_error (fst r) = false /\
  is_success_redirect (fst r) = false /\
  Commitment.getattr alice_report "status"
    = Raise (AttributeError "Commitment" "status").
Proof.
  intros w r.
  assert (Hr : r = (Ok (RedirectResponse "/dashboard"
                          HTTP_307_TEMPORARY_REDIRECT), w)).
  { apply (commitment_resolve_post_signed_in _ _ _ w alice).
    apply alice_signed_in. }
  rewrite Hr. split; [apply alice_signed_in|].
  repeat split; try reflexivity.
  left; reflexivity.
Qed.

(** C2. Alice asks for the resolve form of Bob's commitment (id 2) and of
    an id nobody has (id 99).  Where the backend reads a bare integer
    column as a condition, both requests render the form for Alice's own
    commitment; where it does not, both raise.  Neither is the not-found
    redirect.  (The POST handler does answer both with that redirect and
    changes nothing.) *)
Theorem resolve_get_of_foreign_id_is_not_not_found :
  let shown := TemplateResponse "commitment_resolve.html"
                 [("commitment", CCommitment alice_report); ("error", CNone)] in
  let lax := world as_alice (two_users IntegerTruthy) in
  let strict := world as_alice (two_users BooleanStrict) in
  Commitment.user_id bob_taxes = User.id bob /\
  commitment_resolve_get 2 lax = (Ok shown, lax) /\
  commitment_resolve_get 99 lax = (Ok shown, lax) /\
  commitment_resolve_get 2 strict =
    (Raise (ProgrammingError "argument of AND must be type boolean"), strict) /\
  commitment_resolve_get 99 strict =
    (Raise (ProgrammingError "argument of AND must be type boolean"), strict) /\
  (forall d commitment_id,
     is_not_found
       (fst (commitment_resolve_get commitment_id
               (world as_alice (two_users d)))) = false) /\
  (forall d status outcome_notes,
     commitment_resolve_post 2 status outcome_notes
       (world as_alice (two_users d))
     = (Ok (RedirectResponse "/dashboard" HTTP_307_TEMPORARY_REDIRECT),
        world as_alice (two_users d))).
Proof.
  intros shown lax strict.
  split; [reflexivity|]. split; [reflexivity|]. split; [reflexivity|].
  split; [reflexivity|]. split; [reflexivity|]. split.
  - intros d commitment_id.
    rewrite (commitment_resolve_get_ignores_id commitment_id 0).
    destruct d; reflexivity.
  - intros d status outcome_notes.
    apply (commitment_resolve_post_signed_in _ _ _ _ alice).
    apply alice_signed_in.
Qed.

(** C3. Alice submits the creation form with text, a confidence of 150 and
    a valid deadline.  The handler binds only [commitment_text]; whatever
    the two parsers do, it answers "Invalid deadline format." and the
    database is as it was: no commitment is persisted, clamped or not. *)
Theorem commitment_new_post_persists_nothing
    (fromisoformat int_of_str : pystr -> option Z) (d : Dialect) :
  let w := world as_alice (two_users d) in
  let r := commitment_new_post fromisoformat int_of_str
             (lit "finish report") w in
  r = (Ok (form_error "commitment_new.html" "Invalid deadline format."), w) /\
  commitments (db (snd r)) = commitments (two_users d) /\
  is_success_redirect (fst r) = false.
Proof.
  intros w r. subst r w. rewrite commitment_new_post_run.
  cbn [request db world]. rewrite alice_signed_in.
  repeat split.
Qed.

(** C4. Signing up with a fresh user name, and with a user name that is
    taken, both raise [NameError] for [db]: no validation error for the
    duplicate, no user and no session for the fresh name.  Only the
    empty-field check is reached. *)
Theorem signup_post_raises_name_error
    (pwd_hash : N -> pystr -> pystr) (d : Dialect) :
  let w := world anonymous (two_users d) in
  signup_post pwd_hash (lit "carol") (lit "s3cret") w
    = (Raise (NameError "db"), w) /\
  signup_post pwd_hash (lit "alice") (lit "s3cret") w
    = (Raise (NameError "db"), w) /\
  is_validation_error
    (fst (signup_post pwd_hash (lit "alice") (lit "s3cret") w)) = false /\
  signup_post pwd_hash (lit "") (lit "s3cret") w
    = (Ok (form_error "signup.html" "Username and password required."), w) /\
  signup_post pwd_hash (lit "carol") (lit "") w
    = (Ok (form_error "signup.html" "Username and password required."), w).
Proof.
  intros w. repeat split.
Qed.

(** C6. A login for an unknown user and a login with a wrong password both
    raise [NameError] for [db]; neither returns the "Invalid credentials."
    form. *)
Theorem login_post_raises_name_error
    (pwd_verify : pystr -> pystr -> bool) (d : Dialect) :
  let w := world anonymous (two_users d) in
  login_post pwd_verify (lit "nobody") (lit "x") w
    = (Raise (NameError "db"), w) /\
  login_post pwd_verify (lit "alice") (lit "wrong") w
    = (Raise (NameError "db"), w) /\
  error_message (fst (login_post pwd_verify (lit "nobody") (lit "x") w))
    = None /\
  error_message (fst (login_post pwd_verify (lit "alice") (lit "wrong") w))
    = None.
Proof.
  intros w. repeat split.
Qed.

(** C7. The dashboard of a signed-in user raises [NameError] for
    [user_id] instead of listing her commitments. *)
Theorem dashboard_raises_name_error (d : Dialect) :
  let w := world as_alice (two_users d) in
  get_current_user (request w) (db w) = Ok (Some alice) /\
  dashboard w = (Raise (NameError "user_id"), w).
Proof.
  intros w. split; [apply alice_signed_in|].
  apply (dashboard_signed_in w alice), alice_signed_in.
Qed.

(** C9. [logout] raises [AttributeError] in every world and leaves the
    session as it was: a signed-in session keeps its user identifier, and
    with no session the call is an error, not a no-op. *)
Theorem logout_raises_and_keeps_session :
  (forall w, logout w = (Raise (AttributeError "Request" "clear"), w)) /\
  (forall d,
     session (request (snd (logout (world as_alice (two_users d)))))
       !! "user_id" = Some 1) /\
  (forall d, is_raise (fst (logout (world anonymous (no_users d)))) = true).
Proof.
  repeat split.
Qed.

(** * Further properties of the code *)

(** ** Trimming *)

Lemma lstrip_blank (s : pystr) :
  forallb py_isspace s = true -> lstrip s = [].
Proof.
  induction s as [|c s IH]; cbn; [reflexivity|].
  intros H. apply andb_true_iff in H. destruct H as [Hc Hs].
  rewrite Hc. auto.
Qed.

Lemma lstrip_split (s : pystr) :
  exists pre, s = (pre ++ lstrip s)%list /\ forallb py_isspace pre = true.
Proof.
  induction s as [|c s (pre & Hs & Hpre)]; cbn.
  - exists []. split; reflexivity.
  - destruct (py_isspace c) eqn:Hc.
    + exists (c :: pre). cbn. rewrite Hc, Hpre. split; [congruence|reflexivity].
    + exists []. split; reflexivity.
Qed.

Lemma lstrip_head (s : pystr) (c : N) (t : pystr) :
  lstrip s = c :: t -> py_isspace c = false.
Proof.
  induction s as [|a s IH]; cbn; [discriminate|].
  destruct (py_isspace a) eqn:Ha; [exact IH|].
  intros [= <- <-]. exact Ha.
Qed.

Lemma lstrip_nil_blank (s : pystr) :
  lstrip s = [] -> forallb py_isspace s = true.
Proof.
  intros H. destruct (lstrip_split s) as (pre & Hs & Hpre).
  rewrite H, app_nil_r in Hs. congruence.
Qed.

Lemma lstrip_fixed (c : N) (t : pystr) :
  py_isspace c = false -> lstrip (c :: t) = c :: t.
Proof. intros H. cbn. rewrite H. reflexivity. Qed.

Lemma forallb_rev {A} (f : A -> bool) (l : list A) :
  forallb f (rev l) = forallb f l.
Proof.
  induction l as [|a l IH]; cbn; [reflexivity|].
  rewrite forallb_app, IH. cbn. rewrite andb_true_r. apply andb_comm.
Qed.

Lemma strip_empty_iff (s : pystr) :
  str_is_empty (strip s) = true <-> forallb py_isspace s = true.
Proof.
  unfold strip. split.
  - intros H.
    destruct (rev (lstrip (rev (lstrip s)))) as [|x l] eqn:E; [|discriminate].
    apply (f_equal (@rev N)) in E. rewrite rev_involutive in E. cbn in E.
    apply lstrip_nil_blank in E. rewrite forallb_rev in E.
    destruct (lstrip s) as [|c t] eqn:Hl.
    + apply lstrip_nil_blank. exact Hl.
    + apply lstrip_head in Hl. cbn in E. rewrite Hl in E. discriminate.
  - intros H. rewrite (lstrip_blank s H). reflexivity.
Qed.

(** What [strip] returns is empty, or starts and ends with a character
    that is not white space; stripping it again changes nothing. *)
Lemma strip_shape (s : pystr) :
  strip s = [] \/
  exists a b mid, py_isspace a = false /\ py_isspace b = false /\
    (strip s = [a] /\ a = b \/ strip s = (a :: mid ++ [b])%list).
Proof.
  unfold strip.
  destruct (lstrip_split (rev (lstrip s))) as (pre & Hs & Hpre).
  destruct (lstrip (rev (lstrip s))) as [|b u] eqn:Hu; [left; reflexivity|].
  right. pose proof (lstrip_head _ _ _ Hu) as Hb.
  apply (f_equal (@rev N)) in Hs. rewrite rev_involutive, rev_app_distr in Hs.
  cbn [rev] in *.
  destruct (rev u) as [|a v] eqn:Hv.
  - exists b, b, []. cbn. auto.
  - exists a, b, v. cbn. split; [|split; [exact Hb|right; reflexivity]].
    destruct (lstrip s) as [|c t] eqn:Hl.
    + destruct pre; cbn in Hs; destruct v; discriminate.
    + apply lstrip_head in Hl. cbn in Hs. injection Hs as -> _. exact Hl.
Qed.

Lemma strip_idempotent (s : pystr) : strip (strip s) = strip s.
Proof.
  destruct (strip_shape s) as [H|(a & b & mid & Ha & Hb & [[H ->]|H])];
    rewrite H; unfold strip.
  - reflexivity.
  - cbn. rewrite Ha. cbn. rewrite Ha. reflexivity.
  - rewrite (lstrip_fixed a _ Ha).
    change (a :: mid ++ [b])%list with ((a :: mid) ++ [b])%list.
    rewrite rev_app_distr. cbn [rev app].
    rewrite (lstrip_fixed b _ Hb).
    change (b :: rev mid ++ [a])%list with ([b] ++ (rev mid ++ [a]))%list.
    rewrite rev_app_distr, rev_app_distr, rev_involutive. reflexivity.
Qed.

(** ** The routes, on every request *)

Lemma dashboard_run (w : World) :
  dashboard w =
  (match get_current_user (request w) (db w) with
   | Raise e => Raise e
   | Ok None => Ok login_redirect
   | Ok (Some _) => Raise (NameError "user_id")
   end, w).
Proof.
  unfold dashboard. rewrite bind_run, current_user_run.
  destruct (get_current_user (request w) (db w)) as [[u|]|e]; reflexivity.
Qed.

Lemma commitment_new_get_run (w : World) :
  commitment_new_get w =
  (match get_current_user (request w) (db w) with
   | Raise e => Raise e
   | Ok None => Ok login_redirect
   | Ok (Some _) => Ok (TemplateResponse "commitment_new.html" [("error", CNone)])
   end, w).
Proof.
  unfold commitment_new_get. rewrite bind_run, current_user_run.
  destruct (get_current_user (request w) (db w)) as [[u|]|e]; reflexivity.
Qed.

Lemma commitment_resolve_get_run (commitment_id : Z) (w : World) :
  commitment_resolve_get commitment_id w =
  (match get_current_user (request w) (db w) with
   | Raise e => Raise e
   | Ok None => Ok login_redirect
   | Ok (Some u) =>
       match dialect (db w) with
       | BooleanStrict =>
           Raise (ProgrammingError "argument of AND must be type boolean")
       | IntegerTruthy =>
           match List.find (owned_row u) (commitments (db w)) with
           | None => Ok not_found_redirect
           | Some c =>
               Ok (TemplateResponse "commitment_resolve.html"
                     [("commitment", CCommitment c); ("error", CNone)])
           end
       end
   end, w).
Proof.
  unfold commitment_resolve_get. rewrite bind_run, current_user_run.
  destruct (get_current_user (request w) (db w)) as [[u|]|e]; try reflexivity.
  rewrite bind_run. cbn [ask]. rewrite bind_run. unfold lift at 1.
  unfold query_first. destruct (dialect (db w)); cbn; [|reflexivity].
  fold (owned_row u).
  destruct (List.find (owned_row u) (commitments (db w))); reflexivity.
Qed.

Lemma commitment_resolve_post_run (commitment_id : Z) (status : pystr)
    (outcome_notes : option pystr) (w : World) :
  commitment_resolve_post commitment_id status outcome_notes w =
  (match get_current_user (request w) (db w) with
   | Raise e => Raise e
   | Ok None => Ok login_redirect
   | Ok (Some _) => Ok not_found_redirect
   end, w).
Proof.
  destruct (get_current_user (request w) (db w)) as [[u|]|e] eqn:E.
  - apply (commitment_resolve_post_signed_in _ _ _ w u E).
  - unfold commitment_resolve_post.
    rewrite bind_run, current_user_run, E. reflexivity.
  - unfold commitment_resolve_post.
    rewrite bind_run, current_user_run, E. reflexivity.
Qed.

Lemma signup_post_run pwd_hash (username password : pystr) (w : World) :
  signup_post pwd_hash username password w =
  (if forallb py_isspace username || str_is_empty password
   then Ok (form_error "signup.html" "Username and password required.")
   else Raise (NameError "db"), w).
Proof.
  destruct (forallb py_isspace username) eqn:Hu.
  - apply signup_post_empty. apply orb_true_iff. left.
    apply strip_empty_iff. exact Hu.
  - destruct (str_is_empty password) eqn:Hp; cbn.
    + apply signup_post_empty. rewrite Hp. apply orb_true_r.
    + apply signup_post_nonempty; [|exact Hp].
      destruct (str_is_empty (strip username)) eqn:Hs; [|reflexivity].
      apply strip_empty_iff in Hs. congruence.
Qed.

(** X1. A request that [get_current_user] resolves to no user is sent to
    the login page by every protected route, whatever else it carries, and
    nothing changes. *)
Theorem anonymous_requests_are_sent_to_login
    (fromisoformat int_of_str : pystr -> option Z) (w : World) :
  get_current_user (request w) (db w) = Ok None ->
  dashboard w = (Ok login_redirect, w) /\
  commitment_new_get w = (Ok login_redirect, w) /\
  (forall text,
     commitment_new_post fromisoformat int_of_str text w
     = (Ok login_redirect, w)) /\
  (forall commitment_id,
     commitment_resolve_get commitment_id w = (Ok login_redirect, w)) /\
  (forall commitment_id status outcome_notes,
     commitment_resolve_post commitment_id status outcome_notes w
     = (Ok login_redirect, w)).
Proof.
  intros H. repeat split; intros.
  - rewrite dashboard_run, H. reflexivity.
  - rewrite commitment_new_get_run, H. reflexivity.
  - rewrite commitment_new_post_run, H. reflexivity.
  - rewrite commitment_resolve_get_run, H. reflexivity.
  - rewrite commitment_resolve_post_run, H. reflexivity.
Qed.

Lemma anonymous_requests_are_sent_to_login_witness :
  dashboard (world anonymous (two_users IntegerTruthy))
  = (Ok login_redirect, world anonymous (two_users IntegerTruthy)).
Proof.
  apply (anonymous_requests_are_sent_to_login (fun _ => None) (fun _ => None)
           (world anonymous (two_users IntegerTruthy))).
  reflexivity.
Defined.

(** X2. No route changes the database or the session, on any request: the
    world after the handler is the world before it. *)
Theorem no_route_changes_the_world
    (pwd_hash : N -> pystr -> pystr) (pwd_verify : pystr -> pystr -> bool)
    (fromisoformat int_of_str : pystr -> option Z) (w : World) :
  snd (home w) = w /\
  snd (signup_get w) = w /\
  (forall username password,
     snd (signup_post pwd_hash username password w) = w) /\
  snd (login_get w) = w /\
  (forall username password,
     snd (login_post pwd_verify username password w) = w) /\
  snd (logout w) = w /\
  snd (dashboard w) = w /\
  snd (commitment_new_get w) = w /\
  (forall text,
     snd (commitment_new_post fromisoformat int_of_str text w) = w) /\
  (forall commitment_id, snd (commitment_resolve_get commitment_id w) = w) /\
  (forall commitment_id status outcome_notes,
     snd (commitment_resolve_post commitment_id status outcome_notes w) = w).
Proof.
  repeat split; intros.
  - rewrite signup_post_run. reflexivity.
  - rewrite dashboard_run. reflexivity.
  - rewrite commitment_new_get_run. reflexivity.
  - rewrite commitment_new_post_run. reflexivity.
  - rewrite commitment_resolve_get_run. reflexivity.
  - rewrite commitment_resolve_post_run. reflexivity.
Qed.


(** X4. [signup_post] answers with the "Username and password required."
    form exactly when the user name consists of white space only (or is
    empty) or the password is empty, and raises [NameError] for [db] on
    every other input. *)
Theorem signup_post_outcome (pwd_hash : N -> pystr -> pystr)
    (username password : pystr) (w : World) :
  signup_post pwd_hash username password w =
  (if forallb py_isspace username || str_is_empty password
   then Ok (form_error "signup.html" "Username and password required.")
   else Raise (NameError "db"), w) /\
  (is_validation_error (fst (signup_post pwd_hash username password w)) = true
   <-> forallb py_isspace username = true \/ password = []).
Proof.
  rewrite signup_post_run. split; [reflexivity|]. cbn [fst].
  destruct (forallb py_isspace username) eqn:Hu; cbn.
  - split; auto.
  - destruct password as [|c p]; cbn.
    + split; auto.
    + split; [discriminate|]. intros [H|H]; discriminate.
Qed.

(** X5. For a signed-in user [commitment_new_post] answers "Commitment
    text required." when the text is empty or white space only, and
    "Invalid deadline format." for every other text. *)
Theorem commitment_new_post_signed_in
    (fromisoformat int_of_str : pystr -> option Z)
    (text : pystr) (w : World) (u : User.t) :
  get_current_user (request w) (db w) = Ok (Some u) ->
  commitment_new_post fromisoformat int_of_str text w =
  (Ok (form_error "commitment_new.html"
         (if forallb py_isspace text then "Commitment text required."
          else "Invalid deadline format.")), w).
Proof.
  intros H. rewrite commitment_new_post_run, H.
  destruct (forallb py_isspace text) eqn:Ht.
  - apply strip_empty_iff in Ht. rewrite Ht. reflexivity.
  - destruct (str_is_empty (strip text)) eqn:Hs; [|reflexivity].
    apply strip_empty_iff in Hs. congruence.
Qed.

Lemma commitment_new_post_signed_in_witness :
  commitment_new_post (fun _ => Some 0) (fun _ => Some 50) blank
    (world as_alice (two_users IntegerTruthy))
  = (Ok (form_error "commitment_new.html" "Commitment text required."),
     world as_alice (two_users IntegerTruthy)).
Proof.
  apply (commitment_new_post_signed_in (fun _ => Some 0) (fun _ => Some 50)
           blank (world as_alice (two_users IntegerTruthy)) alice).
  reflexivity.
Defined.

(** X6. [dashboard] never renders a page.  On every request it does one
    of three things: it redirects to the login page (no user is signed
    in), it raises [NameError] for [user_id] (a user is signed in), or it
    raises the [OverflowError] of the session lookup (on SQLite, for a
    session identifier outside the signed 64-bit range). *)
Theorem dashboard_never_renders (w : World) :
  (get_current_user (request w) (db w) = Ok None /\
   fst (dashboard w) = Ok login_redirect \/
   (exists u, get_current_user (request w) (db w) = Ok (Some u)) /\
   fst (dashboard w) = Raise (NameError "user_id") \/
   (dialect (db w) = IntegerTruthy /\
    exists uid, session (request w) !! "user_id" = Some uid /\
                fits_int64 uid = false) /\
   fst (dashboard w) = Raise int_too_large) /\
  (forall name context, fst (dashboard w) <> Ok (TemplateResponse name context)).
Proof.
  rewrite dashboard_run. cbn [fst].
  destruct (get_current_user (request w) (db w)) as [[u|]|e] eqn:E.
  - split; [|discriminate]. right; left. eauto.
  - split; [|discriminate]. left. auto.
  - apply get_current_user_raises in E. destruct E as (-> & Hd & Huid).
    split; [|discriminate]. right; right. auto.
Qed.

(** X7. Whatever [commitment_resolve_get] renders belongs to the caller:
    a commitment shown in its page is a stored commitment owned by the
    signed-in user, for every requested id. *)
Theorem resolve_get_shows_only_own_commitment
    (commitment_id : Z) (w : World) (name : string)
    (context : list (string * CtxVal)) (c : Commitment.t) :
  fst (commitment_resolve_get commitment_id w)
    = Ok (TemplateResponse name context) ->
  dict_get "commitment" context = Some (CCommitment c) ->
  exists u, get_current_user (request w) (db w) = Ok (Some u) /\
            Commitment.user_id c = User.id u /\
            In c (commitments (db w)).
Proof.
  rewrite commitment_resolve_get_run. cbn [fst].
  destruct (get_current_user (request w) (db w)) as [[u|]|e];
    try discriminate.
  destruct (dialect (db w)); [|discriminate].
  destruct (List.find (owned_row u) (commitments (db w))) as [c'|] eqn:Hf;
    [|discriminate].
  intros [= <- <-]. cbn. intros [= <-].
  apply find_some in Hf. destruct Hf as [Hin Hrow].
  exists u. split; [reflexivity|]. split; [|exact Hin].
  unfold owned_row in Hrow. apply andb_true_iff in Hrow.
  destruct Hrow as [_ Hrow]. rewrite andb_true_r in Hrow.
  apply Z.eqb_eq. exact Hrow.
Qed.

Lemma resolve_get_shows_only_own_commitment_witness :
  exists u, get_current_user as_alice (two_users IntegerTruthy) = Ok (Some u) /\
            Commitment.user_id alice_report = User.id u /\
            In alice_report (commitments (two_users IntegerTruthy)).
Proof.
  apply (resolve_get_shows_only_own_commitment 2
           (world as_alice (two_users IntegerTruthy))
           "commitment_resolve.html"
           [("commitment", CCommitment alice_report); ("error", CNone)]).
  - reflexivity.
  - reflexivity.
Defined.

(** X8. For a signed-in user [commitment_resolve_get] gives the same
    answer for every id.  Where the backend reads an integer as a
    condition, that answer is the not-found redirect exactly when the user
    owns no commitment with a non-zero id; where it does not, the query
    raises. *)
Theorem resolve_get_depends_on_owner_only
    (commitment_id : Z) (w : World) (u : User.t) :
  get_current_user (request w) (db w) = Ok (Some u) ->
  commitment_resolve_get commitment_id w = commitment_resolve_get 0 w /\
  (dialect (db w) = IntegerTruthy ->
     (is_not_found (fst (commitment_resolve_get commitment_id w)) = true <->
      forall c, In c (commitments (db w)) ->
                Commitment.user_id c = User.id u -> Commitment.id c = 0)) /\
  (dialect (db w) = BooleanStrict ->
     is_raise (fst (commitment_resolve_get commitment_id w)) = true).
Proof.
  intros H. split; [reflexivity|].
  rewrite commitment_resolve_get_run, H. cbn [fst].
  split; intros ->; [|reflexivity].
  destruct (List.find (owned_row u) (commitments (db w))) as [c|] eqn:Hf.
  - split; [discriminate|]. intros Hall. exfalso.
    apply find_some in Hf. destruct Hf as [Hin Hrow].
    unfold owned_row in Hrow. apply andb_true_iff in Hrow.
    destruct Hrow as [Hid Hown]. rewrite andb_true_r in Hown.
    apply Z.eqb_eq in Hown. rewrite (Hall c Hin Hown) in Hid. discriminate.
  - split; [|reflexivity]. intros _ c Hin Hown.
    pose proof (find_none _ _ Hf c Hin) as Hrow. unfold owned_row in Hrow.
    apply Z.eqb_eq in Hown. rewrite Hown in Hrow. cbn in Hrow.
    rewrite andb_true_r in Hrow. apply negb_false_iff in Hrow.
    apply Z.eqb_eq. exact Hrow.
Qed.

Lemma resolve_get_depends_on_owner_only_witness :
  commitment_resolve_get 2 (world as_alice (two_users IntegerTruthy))
  = commitment_resolve_get 0 (world as_alice (two_users IntegerTruthy)).
Proof.
  apply (resolve_get_depends_on_owner_only 2
           (world as_alice (two_users IntegerTruthy)) alice).
  reflexivity.
Defined.

(** X9. [commitment_resolve_post] has three outcomes only, for every id,
    status and notes: the login redirect when no user is signed in, the
    not-found redirect when one is, and the [OverflowError] of the session
    lookup (on SQLite, for a session identifier outside the signed 64-bit
    range).  It never reports a validation error and never answers with
    the success redirect. *)
Theorem resolve_post_has_three_outcomes (commitment_id : Z) (status : pystr)
    (outcome_notes : option pystr) (w : World) :
  let r := commitment_resolve_post commitment_id status outcome_notes w in
  (get_current_user (request w) (db w) = Ok None /\
   r = (Ok login_redirect, w) \/
   (exists u, get_current_user (request w) (db w) = Ok (Some u)) /\
   r = (Ok not_found_redirect, w) \/
   (dialect (db w) = IntegerTruthy /\
    exists uid, session (request w) !! "user_id" = Some uid /\
                fits_int64 uid = false) /\
   r = (Raise int_too_large, w)) /\
  is_validation_error (fst r) = false /\
  is_success_redirect (fst r) = false.
Proof.
  cbv zeta. rewrite commitment_resolve_post_run.
  destruct (get_current_user (request w) (db w)) as [[u|]|e] eqn:E.
  - split; [|split; reflexivity]. right; left. eauto.
  - split; [|split; reflexivity]. left. auto.
  - apply get_current_user_raises in E. destruct E as (-> & Hd & Huid).
    split; [|split; reflexivity]. right; right. auto.
Qed.

Lemma unique_id_found (l : list User.t) (u : User.t) :
  NoDup (map User.id l) -> In u l ->
  List.find (fun x => (User.id x =? User.id u) && true) l = Some u.
Proof.
  induction l as [|a l IH]; cbn; [tauto|].
  intros Hnd [->|Hin].
  - rewrite Z.eqb_refl. reflexivity.
  - apply NoDup_cons in Hnd. destruct Hnd as [Hnotin Hnd].
    destruct (User.id a =? User.id u) eqn:E; cbn; [|auto].
    apply Z.eqb_eq in E. exfalso. apply Hnotin. rewrite E.
    apply list_elem_of_In. apply in_map. exact Hin.
Qed.

(** X10. What a sign-in writes, the next request reads back: after
    [request.session["user_id"] = user.id] for a stored user with a
    non-zero id, in a table whose ids are distinct, [get_current_user]
    returns that very user, and the database is untouched. *)
Theorem session_set_then_get_current_user (w : World) (u : User.t) :
  In u (users (db w)) -> User.id u <> 0 ->
  NoDup (map User.id (users (db w))) ->
  let w' := snd (session_set "user_id" (User.id u) w) in
  get_current_user (request w') (db w') = Ok (Some u) /\ db w' = db w.
Proof.
  intros Hin Hnz Hnd w'. split; [|reflexivity].
  rewrite get_current_user_run. subst w'. cbn.
  rewrite lookup_insert_eq.
  destruct (User.id u =? 0) eqn:E; [apply Z.eqb_eq in E; contradiction|].
  rewrite bind_integer_fits by (apply Is_true_eq_true, User.id_fits).
  f_equal. apply unique_id_found; assumption.
Qed.

Lemma session_set_then_get_current_user_witness :
  get_current_user (request bob_signs_in) (db bob_signs_in) = Ok (Some bob).
Proof.
  apply (session_set_then_get_current_user
           (world anonymous (two_users IntegerTruthy)) bob).
  - right; left; reflexivity.
  - discriminate.
  - cbn. apply NoDup_cons_2.
    + intros H. apply list_elem_of_In in H. destruct H as [H|[]]. discriminate.
    + apply NoDup_cons_2; [|apply NoDup_nil_2].
      intros H. apply list_elem_of_In in H. destruct H.
Defined.

(** ** Passwords *)




Lemma utf8_encode_ascii (p : pystr) :
  Forall (fun c => (c < 128)%N) p -> utf8_encode p = p.
Proof.
  unfold utf8_encode. induction 1 as [|c p Hc _ IH]; cbn; [reflexivity|].
  rewrite IH. unfold utf8_encode_char.
  apply N.ltb_lt in Hc. rewrite Hc. reflexivity.
Qed.

(** X13. For a password of ASCII characters only, what [hash_password]
    hands to the library is exactly the first 72 bytes of the password's
    UTF-8 encoding. *)
Theorem ascii_password_is_cut_at_72_bytes
    (pwd_hash : N -> pystr -> pystr) (salt : N) (p : pystr) :
  Forall (fun c => (c < 128)%N) p ->
  utf8_encode (slice_to 72 p) = take 72 (utf8_encode p) /\
  (length (utf8_encode (slice_to 72 p)) <= 72)%nat /\
  hash_password pwd_hash salt p = pwd_hash salt (take 72 (utf8_encode p)).
Proof.
  intros Hp. unfold hash_password, slice_to.
  rewrite (utf8_encode_ascii p Hp).
  rewrite (utf8_encode_ascii (take 72 p)) by (apply Forall_take; exact Hp).
  repeat split. rewrite length_take. lia.
Qed.

Lemma ascii_password_is_cut_at_72_bytes_witness :
  utf8_encode (slice_to 72 long_a) = take 72 (utf8_encode long_a).
Proof.
  apply (ascii_password_is_cut_at_72_bytes toy_hash 7%N long_a).
  unfold long_a. apply Forall_app. split.
  - apply Forall_forall. intros c Hc. apply list_elem_of_In in Hc.
    apply repeat_spec in Hc. subst c.
    reflexivity.
  - repeat constructor.
Defined.

(** X14. What reaches the password library is at most 72 characters and
    at most 288 bytes long; a password of at most 72 characters reaches it
    whole, and whatever follows the first 72 characters of a longer one
    changes neither the hash nor the verification. *)
Theorem hashed_secret_bounds
    (pwd_hash : N -> pystr -> pystr) (pwd_verify : pystr -> pystr -> bool)
    (salt : N) (p extra hashed : pystr) :
  (length (slice_to 72 p) <= 72)%nat /\
  (length (utf8_encode (slice_to 72 p)) <= 288)%nat /\
  ((length p <= 72)%nat ->
     hash_password pwd_hash salt p = pwd_hash salt p /\
     verify_password pwd_verify p hashed = pwd_verify p hashed) /\
  ((72 <= length p)%nat ->
     hash_password pwd_hash salt (p ++ extra)%list
     = hash_password pwd_hash salt p /\
     verify_password pwd_verify (p ++ extra)%list hashed
     = verify_password pwd_verify p hashed).
Proof.
  assert (Hlen : (length (slice_to 72 p) <= 72)%nat).
  { unfold slice_to. rewrite length_take. lia. }
  split; [exact Hlen|]. split.
  { pose proof (utf8_encode_length (slice_to 72 p)). lia. }
  unfold hash_password, verify_password, slice_to. split.
  - intros H. rewrite (take_ge p 72 H). split; reflexivity.
  - intros H. rewrite (take_app_le p extra 72 H). split; reflexivity.
Qed.

Lemma hashed_secret_bounds_witness :
  hash_password toy_hash 7 (lit "s3cret") = toy_hash 7 (lit "s3cret") /\
  hash_password toy_hash 7 (repeat 97%N 72 ++ lit "x")%list
  = hash_password toy_hash 7 (repeat 97%N 72).
Proof.
  split.
  - destruct (hashed_secret_bounds toy_hash toy_verify 7%N (lit "s3cret")
                [] []) as (_ & _ & Hshort & _).
    apply Hshort. apply Nat.leb_le. reflexivity.
  - destruct (hashed_secret_bounds toy_hash toy_verify 7%N (repeat 97%N 72)
                (lit "x") []) as (_ & _ & _ & Hlong).
    apply Hlong. rewrite repeat_length. lia.
Defined.

(** ** Configuration *)

(** X15. The process environment wins over the [.env] file.  A non-empty
    [DATABASE_URL] of the environment is the one [create_engine] and
    [create_all] get; one in [.env] is used only when the environment has
    none; an empty one in the environment is not replaced from [.env], and
    the configuration check raises.  The session secret is read the same
    way, and a started application carries the URL and the secret so
    chosen. *)
Theorem startup_prefers_process_environment
    (lib : Libraries) (dotenv environ : gmap string string) :
  let secret :=
    match environ !! "SECRET_KEY" with
    | Some key => Some key
    | None => dotenv !! "SECRET_KEY"
    end in
  (forall url, environ !! "DATABASE_URL" = Some url -> url <> "" ->
     startup lib dotenv environ = started lib url secret) /\
  (forall url, environ !! "DATABASE_URL" = None ->
     dotenv !! "DATABASE_URL" = Some url -> url <> "" ->
     startup lib dotenv environ = started lib url secret) /\
  (environ !! "DATABASE_URL" = Some "" ->
     startup lib dotenv environ = Raise (RuntimeError DATABASE_URL_missing)) /\
  (forall app, startup lib dotenv environ = Ok app ->
     session_secret_key app = secret /\
     library_calls lib (engine_url app) = Ok tt /\
     Some (engine_url app) =
       match environ !! "DATABASE_URL" with
       | Some url => Some url
       | None => dotenv !! "DATABASE_URL"
       end).
Proof.
  intros secret.
  assert (Hsecret : load_dotenv dotenv environ !! "SECRET_KEY" = secret).
  { unfold load_dotenv, secret.
    destruct (environ !! "SECRET_KEY") as [key|] eqn:Hk.
    - apply (lookup_union_Some_l environ dotenv _ _ Hk).
    - apply (lookup_union_r environ dotenv _ Hk). }
  assert (Hurl : load_dotenv dotenv environ !! "DATABASE_URL" =
                 match environ !! "DATABASE_URL" with
                 | Some url => Some url
                 | None => dotenv !! "DATABASE_URL"
                 end).
  { unfold load_dotenv.
    destruct (environ !! "DATABASE_URL") as [url|] eqn:Hk.
    - apply (lookup_union_Some_l environ dotenv _ _ Hk).
    - apply (lookup_union_r environ dotenv _ Hk). }
  split; [|split; [|split]].
  - intros url Henv Hne. rewrite <- Hsecret. apply startup_started; [|exact Hne].
    rewrite Hurl, Henv. reflexivity.
  - intros url Hnone Hdot Hne. rewrite <- Hsecret.
    apply startup_started; [|exact Hne].
    rewrite Hurl, Hnone. exact Hdot.
  - intros Hempty. apply startup_unset_or_empty. right.
    rewrite Hurl, Hempty. reflexivity.
  - intros app Happ. rewrite <- Hurl.
    destruct (load_dotenv dotenv environ !! "DATABASE_URL") as [url|] eqn:E.
    + destruct (decide (url = "")) as [->|Hne].
      * rewrite startup_unset_or_empty in Happ by (right; exact E).
        discriminate.
      * rewrite (startup_started lib dotenv environ url E Hne) in Happ.
        unfold started in Happ.
        destruct (library_calls lib url) as [[]|e] eqn:El; [|discriminate].
        injection Happ as <-. cbn. rewrite El. auto.
    + rewrite startup_unset_or_empty in Happ by (left; exact E).
      discriminate.
Qed.

Lemma startup_prefers_process_environment_witness :
  startup libraries_ok dotenv_postgres env_sqlite
  = Ok {| engine_url := "sqlite:///app.db";
          session_secret_key := Some "from-dotenv" |} /\
  startup libraries_ok dotenv_postgres env_empty_url
  = Raise (RuntimeError DATABASE_URL_missing).
Proof.
  split.
  - destruct (startup_prefers_process_environment libraries_ok
                dotenv_postgres env_sqlite) as (Henv & _).
    apply (Henv "sqlite:///app.db"); [reflexivity|discriminate].
  - destruct (startup_prefers_process_environment libraries_ok
                dotenv_postgres env_empty_url) as (_ & _ & Hempty & _).
    apply Hempty. reflexivity.
Defined.

(** ** Form values *)

(** X16. The clamp of line 182, [max(0, min(100, n))], maps every integer
    into [0, 100], leaves exactly the integers of that range unchanged, is
    monotone, and clamping twice is clamping once. *)
Theorem clamp_pct_is_a_projection (n m : Z) :
  0 <= clamp_pct n <= 100 /\
  (clamp_pct n = n <-> 0 <= n <= 100) /\
  (n <= m -> clamp_pct n <= clamp_pct m) /\
  clamp_pct (clamp_pct n) = clamp_pct n.
Proof. unfold clamp_pct. repeat split; lia. Qed.

Lemma clamp_pct_is_a_projection_witness :
  clamp_pct (-5) <= clamp_pct 150 /\ clamp_pct 80 = 80.
Proof.
  destruct (clamp_pct_is_a_projection (-5) 150) as (_ & _ & Hmono & _).
  destruct (clamp_pct_is_a_projection 80 0) as (_ & Hfix & _).
  split; [apply Hmono; lia | apply Hfix; lia].
Defined.

(** X17. The notes expression of line 231,
    [(outcome_notes or "").strip() or None], yields [None] exactly when
    the notes are missing, empty or white space only; otherwise it yields
    the trimmed notes: not empty, with no white space at either end, and
    unchanged by another [strip]. *)
Theorem normalise_notes_is_trimmed (outcome_notes : option pystr) :
  (normalise_notes outcome_notes = None <->
   forallb py_isspace (default [] outcome_notes) = true) /\
  (forall s, normalise_notes outcome_notes = Some s ->
     s = strip (default [] outcome_notes) /\ s <> [] /\ strip s = s /\
     (exists a, head s = Some a /\ py_isspace a = false) /\
     (exists b, last s = Some b /\ py_isspace b = false)).
Proof.
  unfold normalise_notes. set (raw := default [] outcome_notes).
  pose proof (strip_empty_iff raw) as Hempty.
  destruct (str_is_empty (strip raw)) eqn:E.
  - split; [tauto|discriminate].
  - split.
    + split; [discriminate|]. intros H. apply Hempty in H. discriminate.
    + intros s [= <-]. split; [reflexivity|].
      split; [intros H; rewrite H in E; discriminate|].
      split; [apply strip_idempotent|].
      destruct (strip_shape raw) as [H|(a & b & mid & Ha & Hb & [[H <-]|H])];
        rewrite H in *; [discriminate| |].
      * split; exists a; auto.
      * split; [exists a; auto|exists b]. split; [|exact Hb].
        change (a :: mid ++ [b])%list with ((a :: mid) ++ [b])%list.
        apply last_snoc.
Qed.

Lemma normalise_notes_is_trimmed_witness :
  normalise_notes (Some blank) = None /\ normalise_notes None = None.
Proof.
  split.
  - destruct (normalise_notes_is_trimmed (Some blank)) as [Hnone _].
    apply Hnone. reflexivity.
  - destruct (normalise_notes_is_trimmed None) as [Hnone _].
    apply Hnone. reflexivity.
Defined.
